(** * step05/agent.py: the [podcast_speaker] tool

    A shallow embedding of [podcast_speaker] (src/step05/agent.py, lines
    24-97) together with the part of CPython's [wave.Wave_write], [struct.pack]
    and [io.BytesIO] that the tool drives.

    - Python [bytes] are [list byte]; Python [int] is [Z]; Python [str] is
      [string] (the UTF-8 encoding of the text).
    - The two external services, [client.models.generate_content] and
      [tool_context.save_artifact], are fields of a [Services] record. Each
      call is recorded in a trace of [Event]s and may return or raise.
    - Python exceptions are the [Raised] case of [outcome]; stateful code
      lives in the state-and-exception monad [Eff].
    - The host is little-endian ([sys.byteorder = 'little']), so the byte-swap
      branch of [Wave_write.writeframesraw] is not taken. *)

From Stdlib Require Import ZArith List String Bool Lia DecimalString.
From Stdlib.Strings Require Import Byte.
Import ListNotations.

Local Open Scope string_scope.
Local Open Scope list_scope.
Local Open Scope Z_scope.

(** ** Outcomes and the state-and-exception monad *)

Inductive exn : Type :=
| struct_error                      (* struct.error: argument out of range *)
| wave_Error (msg : string)         (* wave.Error *)
| AssertionError
| TypeError
| ServiceError (msg : string).      (* anything an external service raises *)

Inductive outcome (A : Type) : Type :=
| Returned (a : A)
| Raised (e : exn).

Arguments Returned {A} a.
Arguments Raised {A} e.

Definition Eff (S A : Type) : Type := S -> outcome A * S.

Definition ret {S A} (a : A) : Eff S A := fun s => (Returned a, s).

Definition raise {S A} (e : exn) : Eff S A := fun s => (Raised e, s).

Definition bind {S A B} (m : Eff S A) (k : A -> Eff S B) : Eff S B :=
  fun s =>
    match m s with
    | (Returned a, s') => k a s'
    | (Raised e, s') => (Raised e, s')
    end.

Definition get {S} : Eff S S := fun s => (Returned s, s).

Definition modify {S} (f : S -> S) : Eff S unit := fun s => (Returned tt, f s).

(** A pure computation that may raise, run inside [Eff]. *)
Definition lift {S A} (o : outcome A) : Eff S A := fun s => (o, s).

Declare Scope eff_scope.
Delimit Scope eff_scope with eff.
Notation "x <- m ;; k" := (bind m (fun x => k))
  (at level 61, m at next level, right associativity) : eff_scope.
Notation "m ;; k" := (bind m (fun _ => k))
  (at level 61, right associativity) : eff_scope.
Local Open Scope eff_scope.

(** [if cond: raise e] *)
Definition raise_if {S} (cond : bool) (e : exn) : Eff S unit :=
  if cond then raise e else ret tt.

(** ** Bytes and [struct.pack] *)

Definition bytes := list byte.

Definition byte_to_Z (b : byte) : Z := Z.of_N (Byte.to_N b).

Definition byte_of_Z (z : Z) : byte :=
  match Byte.of_N (Z.to_N (z mod 256)) with
  | Some b => b
  | None => x00
  end.

(** [len(data)] *)
Definition len {A} (l : list A) : Z := Z.of_nat (List.length l).

(** The bytes of a [str] literal such as [b'RIFF']. *)
Definition bytes_of_string (s : string) : bytes := list_byte_of_string s.

(** [struct.pack('<H', x)]: unsigned 16-bit, little-endian. *)
Definition pack_H (x : Z) : outcome bytes :=
  if (0 <=? x) && (x <=? 65535)
  then Returned [byte_of_Z x; byte_of_Z (Z.shiftr x 8)]
  else Raised struct_error.

(** [struct.pack('<L', x)]: unsigned 32-bit, little-endian. *)
Definition pack_L (x : Z) : outcome bytes :=
  if (0 <=? x) && (x <=? 4294967295)
  then Returned [byte_of_Z x; byte_of_Z (Z.shiftr x 8);
                 byte_of_Z (Z.shiftr x 16); byte_of_Z (Z.shiftr x 24)]
  else Raised struct_error.

(** Sequencing of packed fields: the first field out of range raises. *)
Definition pack_seq (a b : outcome bytes) : outcome bytes :=
  match a with
  | Returned x =>
      match b with
      | Returned y => Returned (x ++ y)
      | Raised e => Raised e
      end
  | Raised e => Raised e
  end.

Fixpoint pack_all (fields : list (outcome bytes)) : outcome bytes :=
  match fields with
  | [] => Returned []
  | f :: rest => pack_seq f (pack_all rest)
  end.

(** Little-endian decoding, the reader's side of [pack_H] and [pack_L]. *)
Fixpoint unpack_le (bs : bytes) : Z :=
  match bs with
  | [] => 0
  | b :: rest => byte_to_Z b + 256 * unpack_le rest
  end.

(** ** [io.BytesIO] *)

Record BytesIO : Type := mkBytesIO {
  buffer : bytes;
  position : nat
}.

Definition BytesIO_new : BytesIO := mkBytesIO [] 0.

(** [write] overwrites at the current position, padding with zero bytes when
    the position is past the end, and advances the position. *)
Definition BytesIO_write (data : bytes) (f : BytesIO) : BytesIO :=
  let pos := position f in
  let buf := buffer f in
  mkBytesIO
    (firstn pos buf ++ repeat x00 (pos - List.length buf)%nat ++ data
       ++ skipn (pos + List.length data)%nat buf)
    (pos + List.length data)%nat.

Definition BytesIO_tell (f : BytesIO) : nat := position f.

Definition BytesIO_seek (pos : nat) (f : BytesIO) : BytesIO :=
  mkBytesIO (buffer f) pos.

Definition BytesIO_getvalue (f : BytesIO) : bytes := buffer f.

(** ** [wave.Wave_write]

    The attributes of a writer. [_file] is the [BytesIO] object the writer was
    opened on; the caller keeps its own name for the same object, so what is
    written through [_file] is what the caller's [getvalue()] sees.
    [_file_set] is false once [close()] has reset the attribute to [None]. *)

Record Wave_write : Type := mkWave_write {
  _file : BytesIO;
  _file_set : bool;
  _nchannels : Z;
  _sampwidth : Z;
  _framerate : Z;
  _nframes : Z;
  _nframeswritten : Z;
  _datawritten : Z;
  _datalength : Z;
  _headerwritten : bool;
  _form_length_pos : option nat;
  _data_length_pos : option nat
}.

Definition WAVE_FORMAT_PCM : Z := 1.

Definition initfp (file : BytesIO) : Wave_write :=
  mkWave_write file true 0 0 0 0 0 0 0 false None None.

Definition set_file (v : BytesIO) (w : Wave_write) : Wave_write :=
  mkWave_write v (_file_set w) (_nchannels w) (_sampwidth w) (_framerate w)
    (_nframes w) (_nframeswritten w) (_datawritten w) (_datalength w)
    (_headerwritten w) (_form_length_pos w) (_data_length_pos w).

Definition set_file_set (v : bool) (w : Wave_write) : Wave_write :=
  mkWave_write (_file w) v (_nchannels w) (_sampwidth w) (_framerate w)
    (_nframes w) (_nframeswritten w) (_datawritten w) (_datalength w)
    (_headerwritten w) (_form_length_pos w) (_data_length_pos w).

Definition set_nchannels (v : Z) (w : Wave_write) : Wave_write :=
  mkWave_write (_file w) (_file_set w) v (_sampwidth w) (_framerate w)
    (_nframes w) (_nframeswritten w) (_datawritten w) (_datalength w)
    (_headerwritten w) (_form_length_pos w) (_data_length_pos w).

Definition set_sampwidth (v : Z) (w : Wave_write) : Wave_write :=
  mkWave_write (_file w) (_file_set w) (_nchannels w) v (_framerate w)
    (_nframes w) (_nframeswritten w) (_datawritten w) (_datalength w)
    (_headerwritten w) (_form_length_pos w) (_data_length_pos w).

Definition set_framerate (v : Z) (w : Wave_write) : Wave_write :=
  mkWave_write (_file w) (_file_set w) (_nchannels w) (_sampwidth w) v
    (_nframes w) (_nframeswritten w) (_datawritten w) (_datalength w)
    (_headerwritten w) (_form_length_pos w) (_data_length_pos w).

Definition set_nframes (v : Z) (w : Wave_write) : Wave_write :=
  mkWave_write (_file w) (_file_set w) (_nchannels w) (_sampwidth w)
    (_framerate w) v (_nframeswritten w) (_datawritten w) (_datalength w)
    (_headerwritten w) (_form_length_pos w) (_data_length_pos w).

Definition set_nframeswritten (v : Z) (w : Wave_write) : Wave_write :=
  mkWave_write (_file w) (_file_set w) (_nchannels w) (_sampwidth w)
    (_framerate w) (_nframes w) v (_datawritten w) (_datalength w)
    (_headerwritten w) (_form_length_pos w) (_data_length_pos w).

Definition set_datawritten (v : Z) (w : Wave_write) : Wave_write :=
  mkWave_write (_file w) (_file_set w) (_nchannels w) (_sampwidth w)
    (_framerate w) (_nframes w) (_nframeswritten w) v (_datalength w)
    (_headerwritten w) (_form_length_pos w) (_data_length_pos w).

Definition set_datalength (v : Z) (w : Wave_write) : Wave_write :=
  mkWave_write (_file w) (_file_set w) (_nchannels w) (_sampwidth w)
    (_framerate w) (_nframes w) (_nframeswritten w) (_datawritten w) v
    (_headerwritten w) (_form_length_pos w) (_data_length_pos w).

Definition set_headerwritten (v : bool) (w : Wave_write) : Wave_write :=
  mkWave_write (_file w) (_file_set w) (_nchannels w) (_sampwidth w)
    (_framerate w) (_nframes w) (_nframeswritten w) (_datawritten w)
    (_datalength w) v (_form_length_pos w) (_data_length_pos w).

Definition set_form_length_pos (v : option nat) (w : Wave_write) : Wave_write :=
  mkWave_write (_file w) (_file_set w) (_nchannels w) (_sampwidth w)
    (_framerate w) (_nframes w) (_nframeswritten w) (_datawritten w)
    (_datalength w) (_headerwritten w) v (_data_length_pos w).

Definition set_data_length_pos (v : option nat) (w : Wave_write) : Wave_write :=
  mkWave_write (_file w) (_file_set w) (_nchannels w) (_sampwidth w)
    (_framerate w) (_nframes w) (_nframeswritten w) (_datawritten w)
    (_datalength w) (_headerwritten w) (_form_length_pos w) v.

(** Python truth value of an [int]. *)
Definition truthy (z : Z) : bool := negb (z =? 0).

(** [self._file.write(data)], [self._file.tell()], [self._file.seek(pos, 0)] *)
Definition file_write (data : bytes) : Eff Wave_write unit :=
  modify (fun self => set_file (BytesIO_write data (_file self)) self).

Definition file_tell : Eff Wave_write nat :=
  self <- get ;; ret (BytesIO_tell (_file self)).

Definition file_seek (pos : option nat) : Eff Wave_write unit :=
  match pos with
  | Some p => modify (fun self => set_file (BytesIO_seek p (_file self)) self)
  | None => raise TypeError
  end.

Definition params_locked : exn :=
  wave_Error "cannot change parameters after starting to write".

Definition setnchannels (nchannels : Z) : Eff Wave_write unit :=
  self <- get ;;
  raise_if (truthy (_datawritten self)) params_locked ;;
  raise_if (nchannels <? 1) (wave_Error "bad # of channels") ;;
  modify (set_nchannels nchannels).

Definition setsampwidth (sampwidth : Z) : Eff Wave_write unit :=
  self <- get ;;
  raise_if (truthy (_datawritten self)) params_locked ;;
  raise_if ((sampwidth <? 1) || (4 <? sampwidth)) (wave_Error "bad sample width") ;;
  modify (set_sampwidth sampwidth).

(** [framerate] is an [int] here, so [int(round(framerate))] is [framerate]. *)
Definition setframerate (framerate : Z) : Eff Wave_write unit :=
  self <- get ;;
  raise_if (truthy (_datawritten self)) params_locked ;;
  raise_if (framerate <=? 0) (wave_Error "bad frame rate") ;;
  modify (set_framerate framerate).

Definition _write_header (initlength : Z) : Eff Wave_write unit :=
  self <- get ;;
  raise_if (_headerwritten self) AssertionError ;;
  file_write (bytes_of_string "RIFF") ;;
  (if truthy (_nframes self) then ret tt
   else modify (set_nframes (initlength / (_nchannels self * _sampwidth self)))) ;;
  modify (fun self =>
    set_datalength (_nframes self * _nchannels self * _sampwidth self) self) ;;
  pos <- file_tell ;;
  modify (set_form_length_pos (Some pos)) ;;
  self <- get ;;
  packed <- lift (pack_all
    [ pack_L (36 + _datalength self);
      Returned (bytes_of_string "WAVE");
      Returned (bytes_of_string "fmt ");
      pack_L 16;
      pack_H WAVE_FORMAT_PCM;
      pack_H (_nchannels self);
      pack_L (_framerate self);
      pack_L (_nchannels self * _framerate self * _sampwidth self);
      pack_H (_nchannels self * _sampwidth self);
      pack_H (_sampwidth self * 8);
      Returned (bytes_of_string "data") ]) ;;
  file_write packed ;;
  pos <- file_tell ;;
  modify (set_data_length_pos (Some pos)) ;;
  packed <- lift (pack_L (_datalength self)) ;;
  file_write packed ;;
  modify (set_headerwritten true).

Definition _ensure_header_written (datasize : Z) : Eff Wave_write unit :=
  self <- get ;;
  if _headerwritten self then ret tt
  else
    raise_if (negb (truthy (_nchannels self)))
      (wave_Error "# channels not specified") ;;
    raise_if (negb (truthy (_sampwidth self)))
      (wave_Error "sample width not specified") ;;
    raise_if (negb (truthy (_framerate self)))
      (wave_Error "sampling rate not specified") ;;
    _write_header datasize.

Definition _patchheader : Eff Wave_write unit :=
  self <- get ;;
  raise_if (negb (_headerwritten self)) AssertionError ;;
  if _datawritten self =? _datalength self then ret tt
  else
    curpos <- file_tell ;;
    file_seek (_form_length_pos self) ;;
    packed <- lift (pack_L (36 + _datawritten self)) ;;
    file_write packed ;;
    file_seek (_data_length_pos self) ;;
    packed <- lift (pack_L (_datawritten self)) ;;
    file_write packed ;;
    file_seek (Some curpos) ;;
    modify (fun self => set_datalength (_datawritten self) self).

(** [data] is [bytes], no [_convert] is installed, and the host is
    little-endian: the data is written as it is. *)
Definition writeframesraw (data : bytes) : Eff Wave_write unit :=
  _ensure_header_written (len data) ;;
  self <- get ;;
  let nframes := len data / (_sampwidth self * _nchannels self) in
  file_write data ;;
  modify (fun self => set_datawritten (_datawritten self + len data) self) ;;
  modify (fun self => set_nframeswritten (_nframeswritten self + nframes) self).

Definition writeframes (data : bytes) : Eff Wave_write unit :=
  writeframesraw data ;;
  self <- get ;;
  if _datalength self =? _datawritten self then ret tt else _patchheader.

(** [close()]: the [finally] clause resets [_file] whether or not the [try]
    block raised; an exception of the [try] block propagates. *)
Definition close : Eff Wave_write unit :=
  fun self =>
    let body : Eff Wave_write unit :=
      if _file_set self then
        _ensure_header_written 0 ;;
        self <- get ;;
        if _datalength self =? _datawritten self then ret tt else _patchheader
      else ret tt in
    let (r, self') := body self in
    (r, set_file_set false self').

(** [with wave.open(f, 'wb') as wf: body]. [__exit__] calls [close()] on both
    the normal and the exceptional exit; an exception of [close()] replaces
    the one in flight. *)
Definition with_wave_open (f : BytesIO) (body : Eff Wave_write unit)
  : outcome unit * Wave_write :=
  match body (initfp f) with
  | (Returned _, wf) => close wf
  | (Raised e, wf) =>
      match close wf with
      | (Returned _, wf') => (Raised e, wf')
      | (Raised e', wf') => (Raised e', wf')
      end
  end.

(** ** The [google.genai.types] values the tool builds and inspects *)

Record Blob : Type := mkBlob {
  data : option bytes;
  mime_type : option string
}.

Record Part : Type := mkPart {
  text : option string;
  inline_data : option Blob
}.

Record Content : Type := mkContent {
  parts : option (list Part)
}.

Record Candidate : Type := mkCandidate {
  content : option Content
}.

Record GenerateContentResponse : Type := mkResponse {
  candidates : option (list Candidate)
}.

Record PrebuiltVoiceConfig : Type := mkPrebuiltVoiceConfig {
  voice_name : string
}.

Record VoiceConfig : Type := mkVoiceConfig {
  prebuilt_voice_config : PrebuiltVoiceConfig
}.

Record SpeakerVoiceConfig : Type := mkSpeakerVoiceConfig {
  speaker : string;
  voice_config : VoiceConfig
}.

Record MultiSpeakerVoiceConfig : Type := mkMultiSpeakerVoiceConfig {
  speaker_voice_configs : list SpeakerVoiceConfig
}.

Record SpeechConfig : Type := mkSpeechConfig {
  multi_speaker_voice_config : MultiSpeakerVoiceConfig
}.

Record GenerateContentConfig : Type := mkGenerateContentConfig {
  response_modalities : list string;
  speech_config : SpeechConfig
}.

(** The keyword arguments of one [client.models.generate_content] call. *)
Record GenerateContentCall : Type := mkGenerateContentCall {
  model : string;
  contents : string;
  config : GenerateContentConfig
}.

(** [types.Part.from_bytes(data=..., mime_type=...)] *)
Definition Part_from_bytes (d : bytes) (m : string) : Part :=
  mkPart None (Some (mkBlob (Some d) (Some m))).

(** ** External services and the trace of what the tool did to them *)

Inductive Event : Type :=
| GenerateContent (call : GenerateContentCall)
| LogInfo (msg : string)
| SaveArtifact (filename : string) (artifact : Part).

Definition Trace := list Event.

(** What the services answer, given everything that happened before.
    [generate_content] returns a response object (or [None]) or raises;
    [save_artifact] returns the stored version number or raises. *)
Record Services : Type := mkServices {
  generate_content :
    Trace -> GenerateContentCall -> outcome (option GenerateContentResponse);
  save_artifact : Trace -> string -> Part -> outcome Z
}.

Definition call_generate_content (sv : Services) (call : GenerateContentCall)
  : Eff Trace (option GenerateContentResponse) :=
  fun tr => (generate_content sv tr call, tr ++ [GenerateContent call]).

Definition call_save_artifact (sv : Services) (filename : string) (artifact : Part)
  : Eff Trace Z :=
  fun tr =>
    (save_artifact sv tr filename artifact, tr ++ [SaveArtifact filename artifact]).

Definition logger_info (msg : string) : Eff Trace unit :=
  modify (fun tr => tr ++ [LogInfo msg]).

(** [str(n)] for an [int]. *)
Definition str (n : Z) : string := NilZero.string_of_int (Z.to_int n).

(** ** [podcast_speaker] *)

Definition MODEL_GEMINI_2_5_FLASH_PREVIEW_TTS : string :=
  "gemini-2.5-flash-preview-tts".

(** The text of the f-string before [{script}]: one line and its newline. *)
Definition prompt_preamble : string :=
  "明るくハキハキとしたトーンで2人で会話をしてください。
".

Definition speech_request (script : string) : GenerateContentCall :=
  mkGenerateContentCall
    MODEL_GEMINI_2_5_FLASH_PREVIEW_TTS
    (prompt_preamble ++ script)%string
    (mkGenerateContentConfig
       ["AUDIO"]
       (mkSpeechConfig
          (mkMultiSpeakerVoiceConfig
             [ mkSpeakerVoiceConfig "Speaker 1"
                 (mkVoiceConfig (mkPrebuiltVoiceConfig "Puck"));
               mkSpeakerVoiceConfig "Speaker 2"
                 (mkVoiceConfig (mkPrebuiltVoiceConfig "Zephyr")) ]))).

(** Python truth values: a list is true when it is not empty, an object of a
    class without [__bool__] and [__len__] is always true, [None] is false. *)
Definition truthy_list {A} (o : option (list A)) : bool :=
  match o with
  | Some (_ :: _) => true
  | _ => false
  end.

Definition truthy_obj {A} (o : option A) : bool :=
  match o with
  | Some _ => true
  | None => false
  end.

(** Lines 64-72: the nested presence checks that end in [audio_content]. *)
Definition audio_content_of (response : option GenerateContentResponse)
  : option bytes :=
  match response with
  | Some r =>
      if truthy_list (candidates r) then
        match candidates r with
        | Some (candidate :: _) =>
            match content candidate with
            | Some c =>
                if truthy_list (parts c) then
                  match parts c with
                  | Some (part :: _) =>
                      match inline_data part with
                      | Some blob => data blob
                      | None => None
                      end
                  | _ => None
                  end
                else None
            | None => None
            end
        | _ => None
        end
      else None
  | None => None
  end.

(** Lines 82-87 and the [getvalue()] of line 91. *)
Definition wav_on_memory_getvalue (audio_content : bytes) : outcome bytes :=
  let wav_on_memory := BytesIO_new in
  match
    with_wave_open wav_on_memory
      (setnchannels 1 ;;
       setsampwidth 2 ;;
       setframerate 24000 ;;
       writeframes audio_content)
  with
  | (Returned _, wf) => Returned (BytesIO_getvalue (_file wf))
  | (Raised e, _) => Raised e
  end.

(** A Python [dict] with [str] keys and values, in insertion order. *)
Definition dict := list (string * string).

Fixpoint dict_get (k : string) (d : dict) : option string :=
  match d with
  | [] => None
  | (k', v) :: rest => if String.eqb k k' then Some v else dict_get k rest
  end.

Definition dict_keys (d : dict) : list string := map fst d.

Definition failure_result : dict :=
  [ ("status", "failure");
    ("detail", "failed to generate podcast audio") ].

Definition success_result : dict :=
  [ ("status", "success");
    ("detail", "Audio generated successfully and stored in artifacts.");
    ("filename", "podcast.wav") ].

Definition podcast_speaker (sv : Services) (script : string) : Eff Trace dict :=
  response <- call_generate_content sv (speech_request script) ;;
  match audio_content_of response with
  | None => ret failure_result
  | Some audio_content =>
      logger_info ("Audio length: " ++ str (len audio_content))%string ;;
      wav <- lift (wav_on_memory_getvalue audio_content) ;;
      call_save_artifact sv "podcast.wav" (Part_from_bytes wav "audio/wav") ;;
      ret success_result
  end.

(** ** Test fixtures *)

Definition response_with (payload : bytes) : GenerateContentResponse :=
  mkResponse (Some [mkCandidate (Some (mkContent (Some
    [mkPart None (Some (mkBlob (Some payload) (Some "audio/L16;codec=pcm;rate=24000")))])))]).

(** A synthesis stub that always returns [r], and a store that accepts. *)
Definition stub_services (r : option GenerateContentResponse) : Services :=
  mkServices (fun _ _ => Returned r) (fun _ _ _ => Returned 0).

(** [b * n] for [bytes] *)
Definition bytes_mul (b : bytes) (n : nat) : bytes := List.concat (repeat b n).

(** [b"\x00\x01" * 100] *)
Definition payload_00_01_x100 : bytes := bytes_mul [x00; x01] 100.

Definition transcript_example : string :=
  "Speaker 1: Hello
Speaker 2: Hi there".

(** ** Reading a WAV container back

    The reader's side of the layout [_write_header] emits: the RIFF chunk
    with its size, the WAVE form type, one 16-byte fmt chunk and the data
    chunk. It tells what a container declares and what it carries. *)

Record WavInfo : Type := mkWavInfo {
  riff_size : Z;
  format_tag : Z;
  nchannels : Z;
  framerate : Z;
  byte_rate : Z;
  block_align : Z;
  bits_per_sample : Z;
  data_size : Z;
  frames : bytes
}.

Fixpoint bytes_eqb (a b : bytes) : bool :=
  match a, b with
  | [], [] => true
  | x :: a', y :: b' => Byte.eqb x y && bytes_eqb a' b'
  | _, _ => false
  end.

(** The next [n] bytes and what follows them; [None] when too few are left. *)
Definition take (n : nat) (bs : bytes) : option (bytes * bytes) :=
  if (n <=? List.length bs)%nat then Some (firstn n bs, skipn n bs) else None.

(** The next four bytes must spell [tag]. *)
Definition expect (tag : string) (bs : bytes) : option bytes :=
  match take 4 bs with
  | Some (t, rest) => if bytes_eqb t (bytes_of_string tag) then Some rest else None
  | None => None
  end.

(** An unsigned little-endian field of [n] bytes. *)
Definition field (n : nat) (bs : bytes) : option (Z * bytes) :=
  match take n bs with
  | Some (f, rest) => Some (unpack_le f, rest)
  | None => None
  end.

Definition read_wav (bs : bytes) : option WavInfo :=
  match expect "RIFF" bs with None => None | Some bs =>
  match field 4 bs with None => None | Some (riff_size, bs) =>
  match expect "WAVE" bs with None => None | Some bs =>
  match expect "fmt " bs with None => None | Some bs =>
  match field 4 bs with None => None | Some (fmt_size, bs) =>
  if negb (fmt_size =? 16) then None else
  match field 2 bs with None => None | Some (format_tag, bs) =>
  match field 2 bs with None => None | Some (nchannels, bs) =>
  match field 4 bs with None => None | Some (framerate, bs) =>
  match field 4 bs with None => None | Some (byte_rate, bs) =>
  match field 2 bs with None => None | Some (block_align, bs) =>
  match field 2 bs with None => None | Some (bits_per_sample, bs) =>
  match expect "data" bs with None => None | Some bs =>
  match field 4 bs with None => None | Some (data_size, bs) =>
  match take (Z.to_nat data_size) bs with None => None | Some (frames, _) =>
  Some (mkWavInfo riff_size format_tag nchannels framerate byte_rate
          block_align bits_per_sample data_size frames)
  end end end end end end end end end end end end end end.

(** ** What a run did: observers of the trace *)

Fixpoint generate_calls (tr : Trace) : list GenerateContentCall :=
  match tr with
  | [] => []
  | GenerateContent call :: rest => call :: generate_calls rest
  | _ :: rest => generate_calls rest
  end.

Fixpoint store_calls (tr : Trace) : list (string * Part) :=
  match tr with
  | [] => []
  | SaveArtifact filename artifact :: rest =>
      (filename, artifact) :: store_calls rest
  | _ :: rest => store_calls rest
  end.

(** The events a run appended to the trace [tr] it started from. *)
Definition new_events (tr : Trace) (after : Trace) : Trace :=
  skipn (List.length tr) after.

(** The message of line 80. *)
Definition audio_length_message (audio_content : bytes) : string :=
  ("Audio length: " ++ str (len audio_content))%string.


(** The four ways a response carries no audio payload, in the words of the
    specification: no candidates, a first candidate without content, content
    with an empty parts sequence, a first part without inline data. *)
Inductive payload_unobtainable (r : GenerateContentResponse) : Prop :=
| no_candidates :
    candidates r = None \/ candidates r = Some [] ->
    payload_unobtainable r
| no_content c cs :
    candidates r = Some (c :: cs) -> content c = None ->
    payload_unobtainable r
| empty_parts c cs ct :
    candidates r = Some (c :: cs) -> content c = Some ct ->
    parts ct = None \/ parts ct = Some [] ->
    payload_unobtainable r
| no_inline_data c cs ct p ps :
    candidates r = Some (c :: cs) -> content c = Some ct ->
    parts ct = Some (p :: ps) -> inline_data p = None ->
    payload_unobtainable r.

(** ** More fixtures *)

(** A synthesis stub that returns [r] and an artifact store that raises, as
    [save_artifact] does when no artifact service is configured. *)
Definition store_down_services (r : option GenerateContentResponse) : Services :=
  mkServices (fun _ _ => Returned r)
    (fun _ _ _ => Raised (ServiceError "Artifact service is not initialized.")).

(** A synthesis service that raises. *)
Definition synthesis_down_services : Services :=
  mkServices (fun _ _ => Raised (ServiceError "429 RESOURCE_EXHAUSTED"))
    (fun _ _ _ => Returned 0).

(** A first part with an inline-data object whose [data] is [None]. *)
Definition response_with_empty_blob : GenerateContentResponse :=
  mkResponse (Some [mkCandidate (Some (mkContent (Some
    [mkPart None (Some (mkBlob None (Some "audio/L16")))])))]).

(** A first part that holds text and no inline data. *)
Definition response_with_text : GenerateContentResponse :=
  mkResponse (Some [mkCandidate (Some (mkContent (Some
    [mkPart (Some "sorry") None])))]).

(** 4294967260 zero bytes: the shortest payload whose RIFF size, 36 more than
    the payload, no longer fits an unsigned 32-bit field. *)
Definition huge_payload : bytes := repeat x00 (Z.to_nat 4294967260).

(** ** The container in closed form *)

Definition le16 (x : Z) : bytes := [byte_of_Z x; byte_of_Z (Z.shiftr x 8)].

Definition le32 (x : Z) : bytes :=
  [byte_of_Z x; byte_of_Z (Z.shiftr x 8);
   byte_of_Z (Z.shiftr x 16); byte_of_Z (Z.shiftr x 24)].

Definition riff : bytes := Eval vm_compute in bytes_of_string "RIFF".

(** The 32 bytes between the RIFF size field and the data size field, for
    one channel, two bytes a sample and 24000 frames a second. *)
Definition fmt_chunk : bytes :=
  Eval vm_compute in
    bytes_of_string "WAVE" ++ bytes_of_string "fmt " ++ le32 16 ++
    le16 WAVE_FORMAT_PCM ++ le16 1 ++ le32 24000 ++ le32 48000 ++
    le16 2 ++ le16 16 ++ bytes_of_string "data".

(** The 44 header bytes in front of [d] bytes of data. *)
Definition header_bytes (d : Z) : bytes :=
  riff ++ le32 (36 + d) ++ fmt_chunk ++ le32 d.

(** The size the first header announces: whole frames only. *)
Definition datalength0 (n : Z) : Z := n / (1 * 2) * 1 * 2.

(** The writer after [setnchannels(1)], [setsampwidth(2)], [setframerate(24000)]. *)
Definition w_set : Wave_write :=
  mkWave_write BytesIO_new true 1 2 24000 0 0 0 0 false None None.

(** ... after the header for [n] bytes of data is written, *)
Definition w_hdr (n : Z) : Wave_write :=
  mkWave_write (mkBytesIO (header_bytes (datalength0 n)) 44) true 1 2 24000
    (n / (1 * 2)) 0 0 (datalength0 n) true (Some 4%nat) (Some 40%nat).

(** ... after [writeframesraw(pcm)], *)
Definition w_raw (pcm : bytes) : Wave_write :=
  mkWave_write
    (mkBytesIO (header_bytes (datalength0 (len pcm)) ++ pcm)
       (44 + List.length pcm))
    true 1 2 24000 (len pcm / (1 * 2)) (len pcm / (2 * 1)) (len pcm)
    (datalength0 (len pcm)) true (Some 4%nat) (Some 40%nat).

(** ... after [writeframes(pcm)], with both size fields patched, *)
Definition w_patched (pcm : bytes) : Wave_write :=
  mkWave_write
    (mkBytesIO (header_bytes (len pcm) ++ pcm) (44 + List.length pcm))
    true 1 2 24000 (len pcm / (1 * 2)) (len pcm / (2 * 1)) (len pcm)
    (len pcm) true (Some 4%nat) (Some 40%nat).

(** ... after [close()], *)
Definition w_closed (pcm : bytes) : Wave_write :=
  set_file_set false (w_patched pcm).

(** ... and after a header whose RIFF size field does not fit. *)
Definition w_fail (n : Z) : Wave_write :=
  mkWave_write (mkBytesIO riff 4) true 1 2 24000 (n / (1 * 2)) 0 0
    (datalength0 n) false (Some 4%nat) None.

(** Symbolic execution of [Eff] code: unfold the monad and the writer's
    attribute accessors, leave arithmetic and [struct.pack] alone. *)
Ltac eff_step :=
  cbv beta iota zeta delta
    [bind get ret modify lift raise raise_if
     file_write file_tell file_seek BytesIO_tell
     set_file set_file_set set_nchannels set_sampwidth set_framerate set_nframes
     set_nframeswritten set_datawritten set_datalength set_headerwritten
     set_form_length_pos set_data_length_pos
     _file _file_set _nchannels _sampwidth _framerate _nframes _nframeswritten
     _datawritten _datalength _headerwritten _form_length_pos _data_length_pos
     negb].

(** The same, deciding the tests on attributes that hold literals. *)
Ltac eff_step_tests :=
  cbv beta iota zeta delta
    [bind get ret modify lift raise raise_if
     file_write file_tell file_seek BytesIO_tell
     set_file set_file_set set_nchannels set_sampwidth set_framerate set_nframes
     set_nframeswritten set_datawritten set_datalength set_headerwritten
     set_form_length_pos set_data_length_pos
     _file _file_set _nchannels _sampwidth _framerate _nframes _nframeswritten
     _datawritten _datalength _headerwritten _form_length_pos _data_length_pos
     negb truthy Z.eqb].

(** ** Observers and predicates for the further properties *)

(** The messages a trace logged at INFO level, in order. *)
Fixpoint log_lines (tr : Trace) : list string :=
  match tr with
  | [] => []
  | LogInfo msg :: rest => msg :: log_lines rest
  | _ :: rest => log_lines rest
  end.

(** Every level of lines 65-72 is present, down to the bytes [pcm]: a first
    candidate, its content, a first part, its inline data and the data. *)
Definition payload_present (r : GenerateContentResponse) (pcm : bytes) : Prop :=
  exists c cs ct p ps blob,
    candidates r = Some (c :: cs) /\
    content c = Some ct /\
    parts ct = Some (p :: ps) /\
    inline_data p = Some blob /\
    data blob = Some pcm.

(** The longest payload the container can hold: 2^32 - 1 - 36 bytes. *)
Definition max_payload : Z := 4294967259.

(** * Verification *)

(** ** The monad *)

Lemma bind_run {S A B} (m : Eff S A) (k : A -> Eff S B) s a s' :
  m s = (Returned a, s') -> bind m k s = k a s'.
Proof. intros H. unfold bind. now rewrite H. Qed.

Lemma bind_raise {S A B} (m : Eff S A) (k : A -> Eff S B) s e s' :
  m s = (Raised e, s') -> bind m k s = (Raised e, s').
Proof. intros H. unfold bind. now rewrite H. Qed.

(** ** Little-endian fields *)

Lemma pack_L_ok x : 0 <= x <= 4294967295 -> pack_L x = Returned (le32 x).
Proof.
  intros H. unfold pack_L.
  replace ((0 <=? x) && (x <=? 4294967295)) with true; [reflexivity|].
  symmetry. apply andb_true_iff. split; apply Z.leb_le; lia.
Qed.

Lemma pack_L_overflow x : 4294967295 < x -> pack_L x = Raised struct_error.
Proof.
  intros H. unfold pack_L.
  replace (x <=? 4294967295) with false; [now rewrite andb_false_r|].
  symmetry. apply Z.leb_gt. lia.
Qed.

Lemma pack_all_fmt x :
  0 <= x <= 4294967295 ->
  pack_all
    [pack_L x;
     Returned (bytes_of_string "WAVE");
     Returned (bytes_of_string "fmt "); pack_L 16;
     pack_H WAVE_FORMAT_PCM; pack_H 1; pack_L 24000;
     pack_L (1 * 24000 * 2); pack_H (1 * 2);
     pack_H (2 * 8); Returned (bytes_of_string "data")]
  = Returned (le32 x ++ fmt_chunk).
Proof.
  intros H. cbn [pack_all]. rewrite (pack_L_ok x H). reflexivity.
Qed.

Lemma pack_all_fmt_overflow x rest :
  4294967295 < x -> pack_all (pack_L x :: rest) = Raised struct_error.
Proof.
  intros H. cbn [pack_all]. rewrite (pack_L_overflow x H). reflexivity.
Qed.

Lemma byte_to_Z_of_Z z : byte_to_Z (byte_of_Z z) = z mod 256.
Proof.
  unfold byte_to_Z, byte_of_Z.
  pose proof (Z.mod_pos_bound z 256 ltac:(lia)) as Hm.
  destruct (Byte.of_N (Z.to_N (z mod 256))) as [b |] eqn:E.
  - apply Byte.to_of_N in E. rewrite E. lia.
  - apply Byte.of_N_None_iff in E. lia.
Qed.

Lemma unpack_le_le32 x :
  0 <= x <= 4294967295 ->
  unpack_le [byte_of_Z x; byte_of_Z (Z.shiftr x 8);
             byte_of_Z (Z.shiftr x 16); byte_of_Z (Z.shiftr x 24)] = x.
Proof.
  intros H. cbn [unpack_le]. rewrite !byte_to_Z_of_Z.
  rewrite !Z.shiftr_div_pow2 by lia.
  change (2 ^ 8) with 256. change (2 ^ 16) with 65536.
  change (2 ^ 24) with 16777216.
  Z.to_euclidean_division_equations. lia.
Qed.

(** ** The writer, step by step *)

Lemma len_nonneg {A} (l : list A) : 0 <= len l.
Proof. unfold len. lia. Qed.

Lemma datalength0_bounds n :
  0 <= n -> 0 <= datalength0 n <= n /\ n - 1 <= datalength0 n.
Proof.
  intros Hn. unfold datalength0. change (1 * 2) with 2.
  pose proof (Z.div_mod n 2 ltac:(lia)) as Hd.
  pose proof (Z.mod_pos_bound n 2 ltac:(lia)) as Hm.
  lia.
Qed.

Lemma datalength0_even n : datalength0 n = 2 * (n / 2).
Proof. unfold datalength0. change (1 * 2) with 2. lia. Qed.

Lemma setup_run (k : Eff Wave_write unit) :
  (setnchannels 1 ;; setsampwidth 2 ;; setframerate 24000 ;; k) (initfp BytesIO_new)
  = k w_set.
Proof. reflexivity. Qed.

Lemma header_run n :
  0 <= n -> 36 + datalength0 n <= 4294967295 ->
  _ensure_header_written n w_set = (Returned tt, w_hdr n).
Proof.
  intros Hn H.
  pose proof (datalength0_bounds n Hn) as Hb.
  unfold w_hdr, header_bytes. unfold datalength0 in *.
  unfold _ensure_header_written, _write_header, w_set.
  eff_step_tests.
  rewrite (pack_all_fmt (36 + _)) by lia. rewrite (pack_L_ok (_ * 2)) by lia.
  eff_step.
  reflexivity.
Qed.

Lemma BytesIO_write_end (d buf : bytes) :
  BytesIO_write d (mkBytesIO buf (List.length buf))
  = mkBytesIO (buf ++ d) (List.length buf + List.length d).
Proof.
  unfold BytesIO_write. cbn [buffer position].
  rewrite firstn_all, Nat.sub_diag, skipn_all2 by lia.
  cbn [repeat app]. now rewrite app_nil_r.
Qed.

Lemma writeframesraw_run pcm :
  36 + datalength0 (len pcm) <= 4294967295 ->
  writeframesraw pcm w_set = (Returned tt, w_raw pcm).
Proof.
  intros H. unfold writeframesraw.
  rewrite (bind_run _ _ _ _ _ (header_run _ (len_nonneg pcm) H)).
  unfold w_hdr. eff_step.
  change (mkBytesIO (header_bytes ?d) 44)
    with (mkBytesIO (header_bytes d) (List.length (header_bytes d))).
  rewrite BytesIO_write_end.
  reflexivity.
Qed.

Lemma _patchheader_run pcm :
  datalength0 (len pcm) <> len pcm ->
  36 + len pcm <= 4294967295 ->
  _patchheader (w_raw pcm) = (Returned tt, w_patched pcm).
Proof.
  intros Hne H.
  pose proof (len_nonneg pcm) as Hn.
  unfold _patchheader, w_raw. eff_step.
  rewrite (proj2 (Z.eqb_neq (len pcm) (datalength0 (len pcm)))) by congruence.
  eff_step.
  rewrite (pack_L_ok (36 + len pcm)), (pack_L_ok (len pcm)) by lia.
  eff_step.
  reflexivity.
Qed.

Lemma writeframes_run pcm :
  36 + len pcm <= 4294967295 ->
  writeframes pcm w_set = (Returned tt, w_patched pcm).
Proof.
  intros H.
  pose proof (datalength0_bounds _ (len_nonneg pcm)) as Hb.
  unfold writeframes.
  rewrite (bind_run _ _ _ _ _ (writeframesraw_run pcm ltac:(lia))).
  unfold bind at 1. cbn [get].
  change (_datalength (w_raw pcm)) with (datalength0 (len pcm)).
  change (_datawritten (w_raw pcm)) with (len pcm).
  destruct (Z.eqb_spec (datalength0 (len pcm)) (len pcm)) as [E | E].
  - unfold ret, w_raw, w_patched. now rewrite E.
  - now apply _patchheader_run.
Qed.

Lemma close_run pcm : close (w_patched pcm) = (Returned tt, w_closed pcm).
Proof.
  unfold close, _ensure_header_written, w_patched. eff_step.
  rewrite Z.eqb_refl. reflexivity.
Qed.

Lemma header_overflow n :
  0 <= n -> 4294967295 < 36 + datalength0 n ->
  _ensure_header_written n w_set = (Raised struct_error, w_fail n).
Proof.
  intros Hn H. unfold datalength0 in H.
  unfold _ensure_header_written, _write_header, w_set.
  eff_step_tests.
  rewrite pack_all_fmt_overflow by lia.
  reflexivity.
Qed.

Lemma writeframes_overflow pcm :
  4294967295 < 36 + datalength0 (len pcm) ->
  writeframes pcm w_set = (Raised struct_error, w_fail (len pcm)).
Proof.
  intros H. unfold writeframes, writeframesraw.
  now rewrite (bind_raise _ _ _ _ _
    (bind_raise _ _ _ _ _ (header_overflow _ (len_nonneg pcm) H))).
Qed.

Lemma close_overflow n :
  0 <= n -> 4294967295 < 36 + datalength0 n ->
  fst (close (w_fail n)) = Raised struct_error.
Proof.
  intros Hn H.
  assert (Ht : truthy (n / (1 * 2)) = true).
  { unfold truthy. apply negb_true_iff, Z.eqb_neq.
    unfold datalength0 in H. lia. }
  unfold datalength0 in H.
  unfold close, _ensure_header_written, _write_header, w_fail, datalength0.
  eff_step.
  change (truthy 1) with true. change (truthy 2) with true.
  change (truthy 24000) with true.
  eff_step. rewrite Ht. eff_step.
  rewrite pack_all_fmt_overflow by lia.
  reflexivity.
Qed.

(** ** The container in closed form *)

(** Within the 32-bit limit the container is the 44 header bytes, with
    both size fields exact, followed by the payload. *)
Lemma wav_on_memory_getvalue_ok pcm :
  36 + len pcm <= 4294967295 ->
  wav_on_memory_getvalue pcm = Returned (header_bytes (len pcm) ++ pcm).
Proof.
  intros H. unfold wav_on_memory_getvalue, with_wave_open.
  rewrite setup_run, (writeframes_run pcm H), close_run.
  reflexivity.
Qed.

(** Past the limit [struct.pack] raises, in [writeframes] and again in the
    [close()] of the [with] statement. *)
Lemma wav_on_memory_getvalue_overflow pcm :
  4294967295 < 36 + len pcm ->
  wav_on_memory_getvalue pcm = Raised struct_error.
Proof.
  intros H.
  assert (H' : 4294967295 < 36 + datalength0 (len pcm)).
  { rewrite datalength0_even.
    pose proof (Z.div_mod (len pcm) 2 ltac:(lia)).
    pose proof (Z.mod_pos_bound (len pcm) 2 ltac:(lia)). lia. }
  unfold wav_on_memory_getvalue, with_wave_open.
  rewrite setup_run, (writeframes_overflow pcm H').
  pose proof (close_overflow _ (len_nonneg pcm) H') as Hc.
  destruct (close (w_fail (len pcm))) as [o wf]. cbn [fst] in Hc. subst o.
  reflexivity.
Qed.

(** ** Reading the container back *)

Lemma take_all (bs : bytes) : take (Z.to_nat (len bs)) bs = Some (bs, []).
Proof.
  unfold take, len. rewrite Nat2Z.id, Nat.leb_refl, firstn_all, skipn_all.
  reflexivity.
Qed.

Lemma read_wav_layout (a0 a1 a2 a3 d0 d1 d2 d3 : byte) (tail : bytes) :
  read_wav (riff ++ [a0; a1; a2; a3] ++ fmt_chunk ++ [d0; d1; d2; d3] ++ tail)
  = match take (Z.to_nat (unpack_le [d0; d1; d2; d3])) tail with
    | Some (frames, _) =>
        Some (mkWavInfo (unpack_le [a0; a1; a2; a3]) 1 1 24000 48000 2 16
                (unpack_le [d0; d1; d2; d3]) frames)
    | None => None
    end.
Proof. reflexivity. Qed.

Lemma read_wav_header_bytes pcm :
  36 + len pcm <= 4294967295 ->
  read_wav (header_bytes (len pcm) ++ pcm)
  = Some (mkWavInfo (36 + len pcm) 1 1 24000 48000 2 16 (len pcm) pcm).
Proof.
  intros H. pose proof (len_nonneg pcm) as Hn.
  unfold header_bytes, le32. rewrite <- !app_assoc.
  rewrite read_wav_layout.
  rewrite !unpack_le_le32 by lia.
  now rewrite take_all.
Qed.

Lemma skipn_header_bytes d pcm : skipn 44 (header_bytes d ++ pcm) = pcm.
Proof. reflexivity. Qed.

(** ** Runs of [podcast_speaker] *)

Section Runs.

Variable sv : Services.
Variable script : string.
Variable tr : Trace.

Let request := speech_request script.

(** The synthesis call raises: the exception leaves the tool. *)
Lemma run_synthesis_raises e :
  generate_content sv tr request = Raised e ->
  podcast_speaker sv script tr = (Raised e, tr ++ [GenerateContent request]).
Proof.
  intros Hgen. unfold podcast_speaker, call_generate_content, bind.
  fold request. now rewrite Hgen.
Qed.

(** No payload: the failure result, and nothing after the synthesis call. *)
Lemma run_no_payload response :
  generate_content sv tr request = Returned response ->
  audio_content_of response = None ->
  podcast_speaker sv script tr
  = (Returned failure_result, tr ++ [GenerateContent request]).
Proof.
  intros Hgen Hnone. unfold podcast_speaker, call_generate_content, bind.
  fold request. now rewrite Hgen, Hnone.
Qed.

(** A payload: one log line, the container, one store call. *)
Lemma run_payload response pcm :
  generate_content sv tr request = Returned response ->
  audio_content_of response = Some pcm ->
  podcast_speaker sv script tr
  = let logged :=
      tr ++ [GenerateContent request; LogInfo (audio_length_message pcm)] in
    match wav_on_memory_getvalue pcm with
    | Returned wav =>
        let artifact := Part_from_bytes wav "audio/wav" in
        let stored := logged ++ [SaveArtifact "podcast.wav" artifact] in
        match save_artifact sv logged "podcast.wav" artifact with
        | Returned _ => (Returned success_result, stored)
        | Raised e => (Raised e, stored)
        end
    | Raised e => (Raised e, logged)
    end.
Proof.
  intros Hgen Hsome.
  unfold podcast_speaker, call_generate_content, call_save_artifact,
    logger_info, bind, modify, lift, ret.
  fold request. rewrite Hgen, Hsome. fold (audio_length_message pcm).
  cbn zeta. rewrite <- app_assoc. cbn [app].
  destruct (wav_on_memory_getvalue pcm) as [wav | e]; [| reflexivity].
  now destruct (save_artifact sv _ _ _).
Qed.


(** A result that is returned is one of the two literal dictionaries, and
    which one tells whether there was a payload. *)
Lemma run_returns r :
  fst (podcast_speaker sv script tr) = Returned r ->
  exists response,
    generate_content sv tr request = Returned response /\
    ((audio_content_of response = None /\ r = failure_result) \/
     (exists pcm, audio_content_of response = Some pcm /\ r = success_result)).
Proof.
  intros Hret.
  destruct (generate_content sv tr request) as [response | e] eqn:Hgen.
  - exists response. split; [reflexivity |].
    destruct (audio_content_of response) as [pcm |] eqn:Hpay.
    + right. exists pcm. split; [reflexivity |].
      rewrite (run_payload _ _ Hgen Hpay) in Hret. cbn zeta in Hret.
      destruct (wav_on_memory_getvalue pcm) as [wav | e];
        [| discriminate Hret].
      destruct (save_artifact sv _ _ _); [| discriminate Hret].
      cbn [fst] in Hret. congruence.
    + left. split; [reflexivity |].
      rewrite (run_no_payload _ Hgen Hpay) in Hret.
      cbn [fst] in Hret. congruence.
  - rewrite (run_synthesis_raises _ Hgen) in Hret. discriminate Hret.
Qed.

End Runs.

(** ** Traces *)

Lemma generate_calls_app (a b : Trace) :
  generate_calls (a ++ b) = generate_calls a ++ generate_calls b.
Proof.
  induction a as [| ev a IH]; [reflexivity |].
  destruct ev; cbn [app generate_calls]; now rewrite IH.
Qed.

Lemma new_events_app (tr added : Trace) : new_events tr (tr ++ added) = added.
Proof.
  unfold new_events. induction tr as [| ev tr IH]; [reflexivity | exact IH].
Qed.

(** ** Presence checks *)

Lemma audio_content_of_unobtainable r :
  payload_unobtainable r -> audio_content_of (Some r) = None.
Proof.
  intros H. unfold audio_content_of.
  destruct H as [[Hc | Hc] | c cs Hc Hct | c cs ct Hc Hct [Hp | Hp]
                | c cs ct p ps Hc Hct Hp Hin].
  - now rewrite Hc.
  - now rewrite Hc.
  - rewrite Hc. cbn [truthy_list]. now rewrite Hct.
  - rewrite Hc. cbn [truthy_list]. rewrite Hct. now rewrite Hp.
  - rewrite Hc. cbn [truthy_list]. rewrite Hct. now rewrite Hp.
  - rewrite Hc. cbn [truthy_list]. rewrite Hct, Hp. cbn [truthy_list].
    now rewrite Hin.
Qed.

Lemma audio_content_of_response_with payload :
  audio_content_of (Some (response_with payload)) = Some payload.
Proof. reflexivity. Qed.

(** ** The payload that is too long *)

Lemma len_huge_payload : len huge_payload = 4294967260.
Proof.
  unfold len, huge_payload. rewrite repeat_length. apply Z2Nat.id. lia.
Qed.

Lemma huge_payload_nonempty : huge_payload <> [].
Proof.
  intros H. pose proof len_huge_payload as Hlen. rewrite H in Hlen.
  discriminate Hlen.
Qed.

Lemma run_huge_payload :
  podcast_speaker (stub_services (Some (response_with huge_payload)))
    transcript_example []
  = (Raised struct_error,
     [GenerateContent (speech_request transcript_example);
      LogInfo (audio_length_message huge_payload)]).
Proof.
  rewrite (run_payload (stub_services (Some (response_with huge_payload)))
             transcript_example [] (Some (response_with huge_payload))
             huge_payload eq_refl
             (audio_content_of_response_with huge_payload)).
  cbn zeta.
  rewrite wav_on_memory_getvalue_overflow; [reflexivity |].
  rewrite len_huge_payload. lia.
Qed.

(** * The claims *)

(** ** C1: the WAV container and its round trip *)

(** C1, as amended. For every PCM payload of at most 4294967259 bytes that
    synthesis yields (empty or not), [podcast_speaker] hands the store one
    container; its header declares format tag 1 (PCM), 1 channel, 24000
    frames a second, 2 bytes a frame and 16 bits a sample, its RIFF and data
    size fields are exact, its data section is the payload byte for byte,
    and dropping the 44 header bytes gives the payload back. *)
Theorem wav_container_roundtrip sv script tr response pcm :
  generate_content sv tr (speech_request script) = Returned response ->
  audio_content_of response = Some pcm ->
  36 + len pcm <= 4294967295 ->
  exists wav,
    store_calls (new_events tr (snd (podcast_speaker sv script tr)))
      = [("podcast.wav", Part_from_bytes wav "audio/wav")] /\
    read_wav wav
      = Some (mkWavInfo (36 + len pcm) 1 1 24000 48000 2 16 (len pcm) pcm) /\
    wav = header_bytes (len pcm) ++ pcm /\
    List.length (header_bytes (len pcm)) = 44%nat /\
    skipn 44 wav = pcm.
Proof.
  intros Hgen Hpay Hfit.
  exists (header_bytes (len pcm) ++ pcm).
  rewrite (run_payload _ _ _ _ _ Hgen Hpay). cbn zeta.
  rewrite (wav_on_memory_getvalue_ok pcm Hfit).
  repeat split.
  - destruct (save_artifact sv _ _ _); cbn [snd];
      now rewrite <- app_assoc, new_events_app.
  - now apply read_wav_header_bytes.
Qed.

Lemma wav_container_roundtrip_witness :
  36 + len [x00; x01; x02] <= 4294967295 /\
  exists wav,
    store_calls (new_events []
      (snd (podcast_speaker (stub_services (Some (response_with [x00; x01; x02])))
              transcript_example [])))
      = [("podcast.wav", Part_from_bytes wav "audio/wav")] /\
    read_wav wav = Some (mkWavInfo 39 1 1 24000 48000 2 16 3 [x00; x01; x02]) /\
    wav = header_bytes 3 ++ [x00; x01; x02] /\
    List.length (header_bytes 3) = 44%nat /\
    skipn 44 wav = [x00; x01; x02].
Proof.
  split; [vm_compute; discriminate |].
  apply (wav_container_roundtrip
           (stub_services (Some (response_with [x00; x01; x02])))
           transcript_example [] (Some (response_with [x00; x01; x02]))
           [x00; x01; x02]);
    [reflexivity | reflexivity | vm_compute; discriminate].
Defined.

(** C1 as stated fails: a non-empty payload of 4294967260 bytes is a payload
    synthesis can yield, and for it no container is built; [struct.pack]
    raises on the RIFF size field and nothing reaches the store. *)
Lemma wav_container_overflow :
  huge_payload <> [] /\
  audio_content_of (Some (response_with huge_payload)) = Some huge_payload /\
  wav_on_memory_getvalue huge_payload = Raised struct_error /\
  store_calls
    (snd (podcast_speaker (stub_services (Some (response_with huge_payload)))
            transcript_example [])) = [].
Proof.
  split; [exact huge_payload_nonempty |].
  split; [reflexivity |].
  split.
  - apply wav_on_memory_getvalue_overflow. rewrite len_huge_payload. lia.
  - now rewrite run_huge_payload.
Qed.

(** ** C2: no payload, no store call *)

(** C2. When the response has no candidates, or its first candidate has no
    content, or the content has no parts, or the first part holds no inline
    data, [podcast_speaker] returns the failure result; the synthesis call is
    the only event of the run, so the store is not called and nothing is
    logged. *)
Theorem no_payload_is_failure sv script tr r :
  generate_content sv tr (speech_request script) = Returned (Some r) ->
  payload_unobtainable r ->
  podcast_speaker sv script tr
    = (Returned [("status", "failure");
                 ("detail", "failed to generate podcast audio")],
       tr ++ [GenerateContent (speech_request script)]) /\
  store_calls (new_events tr (snd (podcast_speaker sv script tr))) = [].
Proof.
  intros Hgen Hun.
  rewrite (run_no_payload _ _ _ _ Hgen (audio_content_of_unobtainable r Hun)).
  split; [reflexivity |]. cbn [snd]. now rewrite new_events_app.
Qed.

Lemma no_payload_is_failure_witness :
  payload_unobtainable response_with_text /\
  podcast_speaker (stub_services (Some response_with_text)) transcript_example []
    = (Returned [("status", "failure");
                 ("detail", "failed to generate podcast audio")],
       [] ++ [GenerateContent (speech_request transcript_example)]) /\
  store_calls (new_events []
    (snd (podcast_speaker (stub_services (Some response_with_text))
            transcript_example []))) = [].
Proof.
  assert (Hun : payload_unobtainable response_with_text).
  { eapply no_inline_data; reflexivity. }
  split; [exact Hun |].
  apply (no_payload_is_failure (stub_services (Some response_with_text))
           transcript_example [] response_with_text);
    [reflexivity | exact Hun].
Defined.

(** ** C3: one store call and the success result *)

(** C3, as amended. When synthesis yields a payload of at most 4294967259
    bytes, the run makes exactly one store call, with filename "podcast.wav"
    and a part of media type "audio/wav" holding the container; when that
    call returns, the result is the success result, and when it raises, the
    exception leaves [podcast_speaker] in place of a result. *)
Theorem one_store_call_then_success sv script tr response pcm :
  generate_content sv tr (speech_request script) = Returned response ->
  audio_content_of response = Some pcm ->
  36 + len pcm <= 4294967295 ->
  let wav := header_bytes (len pcm) ++ pcm in
  let artifact := mkPart None (Some (mkBlob (Some wav) (Some "audio/wav"))) in
  let before :=
    tr ++ [GenerateContent (speech_request script);
           LogInfo (audio_length_message pcm)] in
  store_calls (new_events tr (snd (podcast_speaker sv script tr)))
    = [("podcast.wav", artifact)] /\
  (forall version,
     save_artifact sv before "podcast.wav" artifact = Returned version ->
     fst (podcast_speaker sv script tr)
       = Returned
           [("status", "success");
            ("detail", "Audio generated successfully and stored in artifacts.");
            ("filename", "podcast.wav")]) /\
  (forall e,
     save_artifact sv before "podcast.wav" artifact = Raised e ->
     fst (podcast_speaker sv script tr) = Raised e).
Proof.
  intros Hgen Hpay Hfit wav artifact before.
  rewrite (run_payload _ _ _ _ _ Hgen Hpay). cbn zeta.
  rewrite (wav_on_memory_getvalue_ok pcm Hfit).
  fold wav. change (Part_from_bytes wav "audio/wav") with artifact.
  fold before.
  destruct (save_artifact sv before "podcast.wav" artifact) as [v | e'].
  - cbn [fst snd]. unfold before. rewrite <- app_assoc, new_events_app.
    split; [reflexivity | split; [reflexivity | discriminate]].
  - cbn [fst snd]. unfold before. rewrite <- app_assoc, new_events_app.
    split; [reflexivity | split; [discriminate | congruence]].
Qed.

Lemma one_store_call_then_success_witness :
  36 + len payload_00_01_x100 <= 4294967295 /\
  store_calls (new_events []
    (snd (podcast_speaker (stub_services (Some (response_with payload_00_01_x100)))
            transcript_example [])))
    = [("podcast.wav",
        mkPart None (Some (mkBlob
          (Some (header_bytes (len payload_00_01_x100) ++ payload_00_01_x100))
          (Some "audio/wav"))))] /\
  fst (podcast_speaker (stub_services (Some (response_with payload_00_01_x100)))
         transcript_example [])
    = Returned
        [("status", "success");
         ("detail", "Audio generated successfully and stored in artifacts.");
         ("filename", "podcast.wav")].
Proof.
  split; [vm_compute; discriminate |].
  destruct (one_store_call_then_success
              (stub_services (Some (response_with payload_00_01_x100)))
              transcript_example [] (Some (response_with payload_00_01_x100))
              payload_00_01_x100 eq_refl eq_refl)
    as (Hcalls & Hok & _).
  - vm_compute; discriminate.
  - split; [exact Hcalls | exact (Hok 0 eq_refl)].
Defined.

(** C3 as stated fails in two ways. With a store that raises, synthesis
    yields a payload and the one store call is made, but no result is
    returned. With the payload of 4294967260 bytes no store call is made. *)
Lemma one_store_call_counterexample :
  (audio_content_of (Some (response_with [x00; x01])) = Some [x00; x01] /\
   fst (podcast_speaker (store_down_services (Some (response_with [x00; x01])))
          transcript_example [])
     = Raised (ServiceError "Artifact service is not initialized.")) /\
  (audio_content_of (Some (response_with huge_payload)) = Some huge_payload /\
   store_calls
     (snd (podcast_speaker (stub_services (Some (response_with huge_payload)))
             transcript_example [])) = []).
Proof.
  split; [split; reflexivity |].
  split; [reflexivity | now rewrite run_huge_payload].
Qed.

(** ** C4: the one speech-synthesis request *)


(** ** C5: the container is a function of the payload *)

(** C5. Two runs of [podcast_speaker], each with a synthesis service that
    returns the same PCM payload, hand the store the same artifacts: the
    container depends on the payload alone, not on the transcript, the
    services or what happened before. Invoking the tool twice in a row
    with the same transcript and the same stub is the case where the second
    run starts from the trace the first one left. *)
Theorem wav_container_deterministic
    sv1 sv2 script1 script2 tr1 tr2 response1 response2 pcm :
  generate_content sv1 tr1 (speech_request script1) = Returned response1 ->
  audio_content_of response1 = Some pcm ->
  generate_content sv2 tr2 (speech_request script2) = Returned response2 ->
  audio_content_of response2 = Some pcm ->
  store_calls (new_events tr1 (snd (podcast_speaker sv1 script1 tr1)))
    = store_calls (new_events tr2 (snd (podcast_speaker sv2 script2 tr2))) /\
  store_calls (new_events tr1 (snd (podcast_speaker sv1 script1 tr1)))
    = match wav_on_memory_getvalue pcm with
      | Returned wav => [("podcast.wav", Part_from_bytes wav "audio/wav")]
      | Raised _ => []
      end.
Proof.
  intros Hgen1 Hpay1 Hgen2 Hpay2.
  assert (Hcalls : forall sv script tr response,
    generate_content sv tr (speech_request script) = Returned response ->
    audio_content_of response = Some pcm ->
    store_calls (new_events tr (snd (podcast_speaker sv script tr)))
      = match wav_on_memory_getvalue pcm with
        | Returned wav => [("podcast.wav", Part_from_bytes wav "audio/wav")]
        | Raised _ => []
        end).
  { intros sv script tr response Hgen Hpay.
    rewrite (run_payload _ _ _ _ _ Hgen Hpay). cbn zeta.
    destruct (wav_on_memory_getvalue pcm) as [wav | e].
    - destruct (save_artifact sv _ _ _); cbn [snd];
        now rewrite <- app_assoc, new_events_app.
    - cbn [snd]. now rewrite new_events_app. }
  rewrite (Hcalls _ _ _ _ Hgen1 Hpay1), (Hcalls _ _ _ _ Hgen2 Hpay2).
  now split.
Qed.

Lemma wav_container_deterministic_witness :
  let sv := stub_services (Some (response_with payload_00_01_x100)) in
  let once := snd (podcast_speaker sv transcript_example []) in
  let twice := snd (podcast_speaker sv transcript_example once) in
  store_calls (new_events [] once) = store_calls (new_events once twice) /\
  store_calls (new_events [] once)
    = match wav_on_memory_getvalue payload_00_01_x100 with
      | Returned wav => [("podcast.wav", Part_from_bytes wav "audio/wav")]
      | Raised _ => []
      end.
Proof.
  cbn zeta.
  apply (wav_container_deterministic
           (stub_services (Some (response_with payload_00_01_x100)))
           (stub_services (Some (response_with payload_00_01_x100)))
           transcript_example transcript_example
           []
           (snd (podcast_speaker
                   (stub_services (Some (response_with payload_00_01_x100)))
                   transcript_example []))
           (Some (response_with payload_00_01_x100))
           (Some (response_with payload_00_01_x100))
           payload_00_01_x100);
    reflexivity.
Defined.

(** ** C6: the worked example *)

(** C6. For the payload [b"\x00\x01" * 100], 200 bytes long, the container
    handed to the store starts with "RIFF", its fmt chunk declares 1 channel,
    16 bits a sample and 24000 frames a second, and its data chunk has
    length 200 and holds the payload. *)
Theorem example_container :
  let run :=
    podcast_speaker (stub_services (Some (response_with payload_00_01_x100)))
      transcript_example [] in
  len payload_00_01_x100 = 200 /\
  exists wav,
    snd run
      = [GenerateContent (speech_request transcript_example);
         LogInfo "Audio length: 200";
         SaveArtifact "podcast.wav" (Part_from_bytes wav "audio/wav")] /\
    firstn 4 wav = bytes_of_string "RIFF" /\
    read_wav wav
      = Some (mkWavInfo 236 1 1 24000 48000 2 16 200 payload_00_01_x100) /\
    len wav = 244 /\
    skipn 44 wav = payload_00_01_x100.
Proof.
  cbn zeta. split; [reflexivity |].
  exists (header_bytes 200 ++ payload_00_01_x100).
  repeat split; vm_compute; reflexivity.
Qed.

(** ** C7: when a result comes back *)

(** C7, as amended. When the synthesis call returns a response, the payload
    (if there is one) has at most 4294967259 bytes and the one store call of
    the invocation (if it is made) returns, [podcast_speaker] returns a
    result whose status is "success" or "failure", and it is "failure"
    exactly when the response carries no payload. When the synthesis call
    raises, when packaging raises because the payload is longer, or when
    the store call raises, that exception leaves [podcast_speaker] and no
    result is returned. *)
Theorem returns_pipeline_result sv script tr :
  let request := speech_request script in
  let before pcm :=
    tr ++ [GenerateContent request; LogInfo (audio_length_message pcm)] in
  let artifact pcm :=
    Part_from_bytes (header_bytes (len pcm) ++ pcm) "audio/wav" in
  (forall response,
     generate_content sv tr request = Returned response ->
     (forall pcm, audio_content_of response = Some pcm ->
                  36 + len pcm <= 4294967295) ->
     (forall pcm, audio_content_of response = Some pcm ->
                  exists version,
                    save_artifact sv (before pcm) "podcast.wav" (artifact pcm)
                    = Returned version) ->
     exists r,
       fst (podcast_speaker sv script tr) = Returned r /\
       (dict_get "status" r = Some "success" \/
        dict_get "status" r = Some "failure") /\
       (dict_get "status" r = Some "failure"
        <-> audio_content_of response = None)) /\
  (forall e,
     generate_content sv tr request = Raised e ->
     fst (podcast_speaker sv script tr) = Raised e) /\
  (forall response pcm,
     generate_content sv tr request = Returned response ->
     audio_content_of response = Some pcm ->
     4294967295 < 36 + len pcm ->
     fst (podcast_speaker sv script tr) = Raised struct_error) /\
  (forall response pcm e,
     generate_content sv tr request = Returned response ->
     audio_content_of response = Some pcm ->
     36 + len pcm <= 4294967295 ->
     save_artifact sv (before pcm) "podcast.wav" (artifact pcm) = Raised e ->
     fst (podcast_speaker sv script tr) = Raised e).
Proof.
  cbv beta zeta.
  split; [| split; [| split]].
  - intros response Hgen Hfit Hstore.
    destruct (audio_content_of response) as [pcm |] eqn:Hpay.
    + exists success_result.
      rewrite (run_payload _ _ _ _ _ Hgen Hpay). cbn zeta.
      rewrite (wav_on_memory_getvalue_ok pcm (Hfit pcm eq_refl)).
      destruct (Hstore pcm eq_refl) as [v Hv]. rewrite Hv. cbn [fst].
      split; [reflexivity |]. split; [now left |].
      split; discriminate.
    + exists failure_result.
      rewrite (run_no_payload _ _ _ _ Hgen Hpay). cbn [fst].
      split; [reflexivity |]. split; [now right |].
      now split.
  - intros e Hgen. now rewrite (run_synthesis_raises _ _ _ _ Hgen).
  - intros response pcm Hgen Hpay Hlong.
    rewrite (run_payload _ _ _ _ _ Hgen Hpay). cbn zeta.
    now rewrite (wav_on_memory_getvalue_overflow pcm Hlong).
  - intros response pcm e Hgen Hpay Hfit Hstore.
    rewrite (run_payload _ _ _ _ _ Hgen Hpay). cbn zeta.
    rewrite (wav_on_memory_getvalue_ok pcm Hfit).
    now rewrite Hstore.
Qed.

Lemma returns_pipeline_result_witness :
  (exists r,
     fst (podcast_speaker (stub_services (Some (response_with [x00; x01; x02])))
            transcript_example []) = Returned r /\
     (dict_get "status" r = Some "success" \/
      dict_get "status" r = Some "failure") /\
     (dict_get "status" r = Some "failure"
      <-> audio_content_of (Some (response_with [x00; x01; x02])) = None)) /\
  (exists r,
     fst (podcast_speaker (store_down_services (Some response_with_text))
            transcript_example []) = Returned r /\
     (dict_get "status" r = Some "success" \/
      dict_get "status" r = Some "failure") /\
     (dict_get "status" r = Some "failure"
      <-> audio_content_of (Some response_with_text) = None)) /\
  fst (podcast_speaker synthesis_down_services transcript_example [])
    = Raised (ServiceError "429 RESOURCE_EXHAUSTED") /\
  fst (podcast_speaker (stub_services (Some (response_with huge_payload)))
         transcript_example [])
    = Raised struct_error /\
  fst (podcast_speaker (store_down_services (Some (response_with [x00; x01])))
         transcript_example [])
    = Raised (ServiceError "Artifact service is not initialized.").
Proof.
  split; [| split; [| split; [| split]]].
  - apply (proj1 (returns_pipeline_result
                    (stub_services (Some (response_with [x00; x01; x02])))
                    transcript_example [])
             (Some (response_with [x00; x01; x02])));
      [reflexivity | |].
    + intros pcm H. change (Some [x00; x01; x02] = Some pcm) in H.
      assert (E : pcm = [x00; x01; x02]) by congruence.
      rewrite E. vm_compute. discriminate.
    + intros pcm H. exists 0. reflexivity.
  - apply (proj1 (returns_pipeline_result
                    (store_down_services (Some response_with_text))
                    transcript_example [])
             (Some response_with_text));
      [reflexivity | |]; intros pcm H; discriminate H.
  - apply (proj1 (proj2 (returns_pipeline_result synthesis_down_services
                           transcript_example []))).
    reflexivity.
  - apply (proj1 (proj2 (proj2 (returns_pipeline_result
                    (stub_services (Some (response_with huge_payload)))
                    transcript_example [])))
             (Some (response_with huge_payload)) huge_payload);
      [reflexivity | reflexivity |].
    rewrite len_huge_payload. reflexivity.
  - apply (proj2 (proj2 (proj2 (returns_pipeline_result
                    (store_down_services (Some (response_with [x00; x01])))
                    transcript_example [])))
             (Some (response_with [x00; x01])) [x00; x01]);
      [reflexivity | reflexivity | vm_compute; discriminate | reflexivity].
Defined.

(** C7 as stated fails: no result is returned when the synthesis call
    raises, when the artifact store raises, or when the payload is too long
    for the 32-bit size fields of the container. In each case the exception
    leaves [podcast_speaker]. *)
Lemma returns_pipeline_result_counterexample :
  fst (podcast_speaker synthesis_down_services transcript_example [])
    = Raised (ServiceError "429 RESOURCE_EXHAUSTED") /\
  fst (podcast_speaker (store_down_services (Some (response_with [x00; x01])))
         transcript_example [])
    = Raised (ServiceError "Artifact service is not initialized.") /\
  fst (podcast_speaker (stub_services (Some (response_with huge_payload)))
         transcript_example [])
    = Raised struct_error.
Proof.
  split; [reflexivity |]. split; [reflexivity |].
  now rewrite run_huge_payload.
Qed.

(** ** C9: an inline-data object without data *)

(** C9. When the first part has an inline-data object whose data is [None],
    [podcast_speaker] returns the failure result, and the synthesis call is
    the only event of the run: the store is not called. *)
Theorem empty_blob_is_failure sv script tr r c cs ct p ps blob :
  generate_content sv tr (speech_request script) = Returned (Some r) ->
  candidates r = Some (c :: cs) ->
  content c = Some ct ->
  parts ct = Some (p :: ps) ->
  inline_data p = Some blob ->
  data blob = None ->
  podcast_speaker sv script tr
    = (Returned [("status", "failure");
                 ("detail", "failed to generate podcast audio")],
       tr ++ [GenerateContent (speech_request script)]) /\
  store_calls (new_events tr (snd (podcast_speaker sv script tr))) = [].
Proof.
  intros Hgen Hc Hct Hp Hin Hdata.
  assert (Hnone : audio_content_of (Some r) = None).
  { unfold audio_content_of. rewrite Hc. cbn [truthy_list].
    rewrite Hct, Hp. cbn [truthy_list]. now rewrite Hin. }
  rewrite (run_no_payload _ _ _ _ Hgen Hnone).
  split; [reflexivity |]. cbn [snd]. now rewrite new_events_app.
Qed.

Lemma empty_blob_is_failure_witness :
  podcast_speaker (stub_services (Some response_with_empty_blob))
    transcript_example []
    = (Returned [("status", "failure");
                 ("detail", "failed to generate podcast audio")],
       [] ++ [GenerateContent (speech_request transcript_example)]) /\
  store_calls (new_events []
    (snd (podcast_speaker (stub_services (Some response_with_empty_blob))
            transcript_example []))) = [].
Proof.
  apply (empty_blob_is_failure (stub_services (Some response_with_empty_blob))
           transcript_example [] response_with_empty_blob
           (mkCandidate (Some (mkContent (Some
              [mkPart None (Some (mkBlob None (Some "audio/L16")))]))))
           []
           (mkContent (Some [mkPart None (Some (mkBlob None (Some "audio/L16")))]))
           (mkPart None (Some (mkBlob None (Some "audio/L16"))))
           []
           (mkBlob None (Some "audio/L16")));
    reflexivity.
Defined.

(** ** C10: the fields of the result *)

(** C10. A result that [podcast_speaker] returns has either exactly the
    fields status and detail, with status "failure", or exactly the fields
    status, detail and filename, with status "success"; so it has a filename
    field if and only if its status is "success". *)
Theorem filename_iff_success sv script tr r :
  fst (podcast_speaker sv script tr) = Returned r ->
  ((dict_keys r = ["status"; "detail"] /\
    dict_get "status" r = Some "failure" /\
    dict_get "filename" r = None) \/
   (dict_keys r = ["status"; "detail"; "filename"] /\
    dict_get "status" r = Some "success" /\
    dict_get "filename" r = Some "podcast.wav")) /\
  (In "filename" (dict_keys r) <-> dict_get "status" r = Some "success").
Proof.
  intros Hret.
  destruct (run_returns sv script tr r Hret)
    as (response & _ & [[_ Hr] | (pcm & _ & Hr)]); subst r.
  - split; [left; repeat split |].
    split; [| discriminate].
    cbn. intros [H | [H | []]]; discriminate H.
  - split; [right; repeat split |].
    split; [reflexivity |].
    intros _. cbn. now right; right; left.
Qed.

Lemma filename_iff_success_witness :
  (let r := success_result in
   fst (podcast_speaker (stub_services (Some (response_with [x00; x01])))
          transcript_example []) = Returned r /\
   (In "filename" (dict_keys r) <-> dict_get "status" r = Some "success")) /\
  (let r := failure_result in
   fst (podcast_speaker (stub_services (Some response_with_text))
          transcript_example []) = Returned r /\
   (In "filename" (dict_keys r) <-> dict_get "status" r = Some "success")).
Proof.
  split; cbn zeta; (split; [reflexivity |]).
  - exact (proj2 (filename_iff_success
                    (stub_services (Some (response_with [x00; x01])))
                    transcript_example [] success_result eq_refl)).
  - exact (proj2 (filename_iff_success
                    (stub_services (Some response_with_text))
                    transcript_example [] failure_result eq_refl)).
Defined.

(** * Further properties of [podcast_speaker] *)

Lemma store_calls_app (a b : Trace) :
  store_calls (a ++ b) = store_calls a ++ store_calls b.
Proof.
  induction a as [| ev a IH]; [reflexivity |].
  destruct ev; cbn [app store_calls]; now rewrite IH.
Qed.

Lemma audio_content_of_present r pcm :
  audio_content_of (Some r) = Some pcm <-> payload_present r pcm.
Proof.
  unfold payload_present, audio_content_of. split.
  - destruct (candidates r) as [[| c cs] |] eqn:Hc; cbn [truthy_list];
      try discriminate.
    destruct (content c) as [ct |] eqn:Hct; try discriminate.
    destruct (parts ct) as [[| p ps] |] eqn:Hp; cbn [truthy_list];
      try discriminate.
    destruct (inline_data p) as [blob |] eqn:Hin; try discriminate.
    intros Hdata. now exists c, cs, ct, p, ps, blob.
  - intros (c & cs & ct & p & ps & blob & Hc & Hct & Hp & Hin & Hdata).
    rewrite Hc. cbn [truthy_list]. rewrite Hct, Hp. cbn [truthy_list].
    now rewrite Hin.
Qed.

(** ** X1: what packaging does to every payload *)

(** X1. Lines 82-87 and 91 either build the 44 header bytes followed by the
    payload, which they do exactly for payloads of at most [max_payload]
    bytes, or raise [struct.error]. No [wave.Error], assertion or type
    error leaves the block; an odd-length payload gets no padding byte. *)
Theorem packaging_outcome pcm :
  wav_on_memory_getvalue pcm
    = (if len pcm <=? max_payload
       then Returned (header_bytes (len pcm) ++ pcm)
       else Raised struct_error) /\
  (forall wav, wav_on_memory_getvalue pcm = Returned wav ->
               len wav = 44 + len pcm).
Proof.
  unfold max_payload.
  destruct (Z.leb_spec (len pcm) 4294967259) as [Hle | Hgt].
  - rewrite (wav_on_memory_getvalue_ok pcm) by lia.
    split; [reflexivity |].
    intros wav Hw.
    assert (E : wav = header_bytes (len pcm) ++ pcm) by congruence.
    rewrite E.
    unfold len at 1. rewrite length_app.
    change (List.length (header_bytes (len pcm))) with 44%nat.
    unfold len. lia.
  - rewrite (wav_on_memory_getvalue_overflow pcm) by lia.
    split; [reflexivity | discriminate].
Qed.

(** ** X2: exactly when the failure result comes back *)

(** X2. When the synthesis call returns, the failure result is returned if
    and only if the response is [None] or some level of the nested checks is
    absent: any response with a first candidate, content, a first part,
    inline data and data gets past line 74, whatever the data is. *)
Theorem failure_iff_payload_absent sv script tr response :
  generate_content sv tr (speech_request script) = Returned response ->
  (fst (podcast_speaker sv script tr) = Returned failure_result
   <-> ~ exists r pcm, response = Some r /\ payload_present r pcm).
Proof.
  intros Hgen. split.
  - intros Hret (r & pcm & -> & Hpres).
    apply audio_content_of_present in Hpres.
    destruct (run_returns sv script tr _ Hret)
      as (response' & Hgen' & [[Hnone _] | (pcm' & _ & Habs)]).
    + rewrite Hgen in Hgen'. assert (response' = Some r) by congruence.
      subst response'. congruence.
    + discriminate Habs.
  - intros Habsent.
    destruct (audio_content_of response) as [pcm |] eqn:Hpay.
    + exfalso. apply Habsent. destruct response as [r |].
      * exists r, pcm. split; [reflexivity |].
        now apply audio_content_of_present.
      * discriminate Hpay.
    + now rewrite (run_no_payload _ _ _ _ Hgen Hpay).
Qed.

Lemma failure_iff_payload_absent_witness :
  fst (podcast_speaker (stub_services (Some response_with_text))
         transcript_example [])
    = Returned failure_result
  <-> ~ exists r pcm, Some response_with_text = Some r /\ payload_present r pcm.
Proof.
  apply (failure_iff_payload_absent (stub_services (Some response_with_text))
           transcript_example [] (Some response_with_text)).
  reflexivity.
Defined.

(** ** X3: the empty payload *)

(** X3. Inline data of zero bytes is not a failure: line 74 tests for [None],
    not for emptiness. The run logs "Audio length: 0", stores a container of
    the 44 header bytes alone, with data size 0, and returns the success
    result when the store call returns. *)
Theorem empty_payload_is_success sv script tr response :
  generate_content sv tr (speech_request script) = Returned response ->
  audio_content_of response = Some [] ->
  let artifact := Part_from_bytes (header_bytes 0) "audio/wav" in
  let before :=
    tr ++ [GenerateContent (speech_request script);
           LogInfo "Audio length: 0"] in
  snd (podcast_speaker sv script tr)
    = before ++ [SaveArtifact "podcast.wav" artifact] /\
  List.length (header_bytes 0) = 44%nat /\
  read_wav (header_bytes 0) = Some (mkWavInfo 36 1 1 24000 48000 2 16 0 []) /\
  (forall version,
     save_artifact sv before "podcast.wav" artifact = Returned version ->
     fst (podcast_speaker sv script tr) = Returned success_result).
Proof.
  intros Hgen Hpay artifact before.
  rewrite (run_payload _ _ _ _ _ Hgen Hpay). cbn zeta.
  rewrite (wav_on_memory_getvalue_ok []) by (vm_compute; discriminate).
  change (header_bytes (len []) ++ []) with (header_bytes 0).
  change (audio_length_message []) with "Audio length: 0".
  fold artifact. fold before.
  destruct (save_artifact sv before "podcast.wav" artifact) as [v | e];
    cbn [fst snd]; repeat split; discriminate.
Qed.

Lemma empty_payload_is_success_witness :
  snd (podcast_speaker (stub_services (Some (response_with [])))
         transcript_example [])
    = ([] ++ [GenerateContent (speech_request transcript_example);
              LogInfo "Audio length: 0"])
      ++ [SaveArtifact "podcast.wav" (Part_from_bytes (header_bytes 0) "audio/wav")] /\
  fst (podcast_speaker (stub_services (Some (response_with [])))
         transcript_example []) = Returned success_result.
Proof.
  destruct (empty_payload_is_success (stub_services (Some (response_with [])))
              transcript_example [] (Some (response_with [])) eq_refl eq_refl)
    as (Htr & _ & _ & Hok).
  split; [exact Htr | exact (Hok 0 eq_refl)].
Defined.

(** ** X4: what can reach the store *)

(** X4. Whatever the services do, a run makes no store call or exactly one,
    and the one call always has filename "podcast.wav", media type
    "audio/wav" and, as bytes, a well-formed container (1 channel, 16 bits,
    24000 frames a second) whose data section is the payload of the response.
    The store never sees anything else. *)
Theorem stored_artifacts_invariant sv script tr :
  store_calls (new_events tr (snd (podcast_speaker sv script tr))) = [] \/
  exists response pcm,
    generate_content sv tr (speech_request script) = Returned response /\
    audio_content_of response = Some pcm /\
    len pcm <= max_payload /\
    store_calls (new_events tr (snd (podcast_speaker sv script tr)))
      = [("podcast.wav",
          Part_from_bytes (header_bytes (len pcm) ++ pcm) "audio/wav")] /\
    read_wav (header_bytes (len pcm) ++ pcm)
      = Some (mkWavInfo (36 + len pcm) 1 1 24000 48000 2 16 (len pcm) pcm).
Proof.
  unfold max_payload.
  destruct (generate_content sv tr (speech_request script))
    as [response | e] eqn:Hgen.
  - destruct (audio_content_of response) as [pcm |] eqn:Hpay.
    + rewrite (run_payload _ _ _ _ _ Hgen Hpay). cbn zeta.
      destruct (Z.leb_spec (len pcm) 4294967259) as [Hle | Hgt].
      * right. exists response, pcm.
        rewrite (wav_on_memory_getvalue_ok pcm) by lia.
        split; [reflexivity |]. split; [exact Hpay |].
        split; [exact Hle |].
        split; [| apply read_wav_header_bytes; lia].
        destruct (save_artifact sv _ _ _); cbn [snd];
          now rewrite <- app_assoc, new_events_app.
      * left. rewrite (wav_on_memory_getvalue_overflow pcm) by lia.
        cbn [snd]. now rewrite new_events_app.
    + left. rewrite (run_no_payload _ _ _ _ Hgen Hpay).
      cbn [snd]. now rewrite new_events_app.
  - left. rewrite (run_synthesis_raises _ _ _ _ Hgen).
    cbn [snd]. now rewrite new_events_app.
Qed.

(** ** X5: where an exception can come from *)

(** X5. An exception that leaves [podcast_speaker] is the one raised by the
    synthesis call, or [struct.error] for a payload longer than
    [max_payload], or the one raised by the store call for a payload within
    the limit. The tool raises nothing else of its own. *)
Theorem raised_exceptions_classified sv script tr e :
  fst (podcast_speaker sv script tr) = Raised e ->
  generate_content sv tr (speech_request script) = Raised e \/
  exists response pcm,
    generate_content sv tr (speech_request script) = Returned response /\
    audio_content_of response = Some pcm /\
    ((max_payload < len pcm /\ e = struct_error) \/
     (len pcm <= max_payload /\
      save_artifact sv
        (tr ++ [GenerateContent (speech_request script);
                LogInfo (audio_length_message pcm)])
        "podcast.wav"
        (Part_from_bytes (header_bytes (len pcm) ++ pcm) "audio/wav")
      = Raised e)).
Proof.
  unfold max_payload. intros Hret.
  destruct (generate_content sv tr (speech_request script))
    as [response | e0] eqn:Hgen.
  - right.
    destruct (audio_content_of response) as [pcm |] eqn:Hpay.
    + exists response, pcm. split; [reflexivity |]. split; [exact Hpay |].
      rewrite (run_payload _ _ _ _ _ Hgen Hpay) in Hret. cbn zeta in Hret.
      destruct (Z.leb_spec (len pcm) 4294967259) as [Hle | Hgt].
      * right. split; [exact Hle |].
        rewrite (wav_on_memory_getvalue_ok pcm) in Hret by lia.
        destruct (save_artifact sv _ _ _) as [v | e1];
          cbn [fst] in Hret; [discriminate Hret | congruence].
      * left. split; [exact Hgt |].
        rewrite (wav_on_memory_getvalue_overflow pcm) in Hret by lia.
        cbn [fst] in Hret. congruence.
    + rewrite (run_no_payload _ _ _ _ Hgen Hpay) in Hret. discriminate Hret.
  - left. rewrite (run_synthesis_raises _ _ _ _ Hgen) in Hret.
    cbn [fst] in Hret. congruence.
Qed.

Lemma raised_exceptions_classified_witness :
  let sv := store_down_services (Some (response_with [x00; x01])) in
  let e := ServiceError "Artifact service is not initialized." in
  generate_content sv [] (speech_request transcript_example) = Raised e \/
  exists response pcm,
    generate_content sv [] (speech_request transcript_example)
      = Returned response /\
    audio_content_of response = Some pcm /\
    ((max_payload < len pcm /\ e = struct_error) \/
     (len pcm <= max_payload /\
      save_artifact sv
        ([] ++ [GenerateContent (speech_request transcript_example);
                LogInfo (audio_length_message pcm)])
        "podcast.wav"
        (Part_from_bytes (header_bytes (len pcm) ++ pcm) "audio/wav")
      = Raised e)).
Proof.
  cbn zeta.
  apply (raised_exceptions_classified
           (store_down_services (Some (response_with [x00; x01])))
           transcript_example []
           (ServiceError "Artifact service is not initialized.")).
  reflexivity.
Defined.

(** ** X6: a payload past the limit *)

(** X6. For every payload longer than [max_payload] the run logs the length,
    raises [struct.error] while packaging, and stops there: no store call is
    made and no result is returned. *)
Theorem overlong_payload_raises sv script tr response pcm :
  generate_content sv tr (speech_request script) = Returned response ->
  audio_content_of response = Some pcm ->
  max_payload < len pcm ->
  podcast_speaker sv script tr
    = (Raised struct_error,
       tr ++ [GenerateContent (speech_request script);
              LogInfo (audio_length_message pcm)]) /\
  store_calls (new_events tr (snd (podcast_speaker sv script tr))) = [].
Proof.
  unfold max_payload. intros Hgen Hpay Hlong.
  rewrite (run_payload _ _ _ _ _ Hgen Hpay). cbn zeta.
  rewrite (wav_on_memory_getvalue_overflow pcm) by lia.
  split; [reflexivity |]. cbn [snd]. now rewrite new_events_app.
Qed.

Lemma overlong_payload_raises_witness :
  max_payload < len huge_payload /\
  podcast_speaker (stub_services (Some (response_with huge_payload)))
    transcript_example []
    = (Raised struct_error,
       [] ++ [GenerateContent (speech_request transcript_example);
              LogInfo (audio_length_message huge_payload)]) /\
  store_calls (new_events []
    (snd (podcast_speaker (stub_services (Some (response_with huge_payload)))
            transcript_example []))) = [].
Proof.
  assert (Hlong : max_payload < len huge_payload).
  { rewrite len_huge_payload. reflexivity. }
  split; [exact Hlong |].
  apply (overlong_payload_raises
           (stub_services (Some (response_with huge_payload)))
           transcript_example [] (Some (response_with huge_payload))
           huge_payload);
    [reflexivity | reflexivity | exact Hlong].
Defined.

(** ** X7: a synthesis call that raises *)

(** X7. When [generate_content] raises, the same exception leaves
    [podcast_speaker] and the synthesis call is the only thing the run did:
    nothing is logged, nothing is packaged and the store is not called. *)
Theorem synthesis_exception_propagates sv script tr e :
  generate_content sv tr (speech_request script) = Raised e ->
  fst (podcast_speaker sv script tr) = Raised e /\
  new_events tr (snd (podcast_speaker sv script tr))
    = [GenerateContent (speech_request script)].
Proof.
  intros Hgen. rewrite (run_synthesis_raises _ _ _ _ Hgen).
  split; [reflexivity |]. cbn [snd]. now rewrite new_events_app.
Qed.

Lemma synthesis_exception_propagates_witness :
  fst (podcast_speaker synthesis_down_services transcript_example [])
    = Raised (ServiceError "429 RESOURCE_EXHAUSTED") /\
  new_events [] (snd (podcast_speaker synthesis_down_services transcript_example []))
    = [GenerateContent (speech_request transcript_example)].
Proof.
  apply (synthesis_exception_propagates synthesis_down_services
           transcript_example [] (ServiceError "429 RESOURCE_EXHAUSTED")).
  reflexivity.
Defined.

(** ** X8: the log line *)

(** X8. A run logs exactly one line, "Audio length: " followed by the decimal
    length of the payload, when the response carries a payload, and this
    whether or not packaging or the store call then raises; it logs nothing
    when there is no payload or the synthesis call raises. *)
Theorem log_lines_of_run sv script tr :
  log_lines (new_events tr (snd (podcast_speaker sv script tr)))
  = match generate_content sv tr (speech_request script) with
    | Returned response =>
        match audio_content_of response with
        | Some pcm => [("Audio length: " ++ str (len pcm))%string]
        | None => []
        end
    | Raised _ => []
    end.
Proof.
  destruct (generate_content sv tr (speech_request script))
    as [response | e] eqn:Hgen.
  - destruct (audio_content_of response) as [pcm |] eqn:Hpay.
    + rewrite (run_payload _ _ _ _ _ Hgen Hpay). cbn zeta.
      destruct (wav_on_memory_getvalue pcm) as [wav | e].
      * destruct (save_artifact sv _ _ _); cbn [snd];
          now rewrite <- app_assoc, new_events_app.
      * cbn [snd]. now rewrite new_events_app.
    + rewrite (run_no_payload _ _ _ _ Hgen Hpay).
      cbn [snd]. now rewrite new_events_app.
  - rewrite (run_synthesis_raises _ _ _ _ Hgen).
    cbn [snd]. now rewrite new_events_app.
Qed.

(** ** X9: two invocations in a row *)

(** X9. Two invocations, one after the other, each with a payload within
    the limit, make two store calls, in order, under the same filename
    "podcast.wav": the second container is stored under the name of the
    first, and each holds its own payload. *)
Theorem two_invocations_same_filename
    sv script1 script2 tr response1 response2 pcm1 pcm2 :
  let once := snd (podcast_speaker sv script1 tr) in
  let twice := snd (podcast_speaker sv script2 once) in
  generate_content sv tr (speech_request script1) = Returned response1 ->
  audio_content_of response1 = Some pcm1 ->
  len pcm1 <= max_payload ->
  generate_content sv once (speech_request script2) = Returned response2 ->
  audio_content_of response2 = Some pcm2 ->
  len pcm2 <= max_payload ->
  store_calls (new_events tr twice)
    = [("podcast.wav",
        Part_from_bytes (header_bytes (len pcm1) ++ pcm1) "audio/wav");
       ("podcast.wav",
        Part_from_bytes (header_bytes (len pcm2) ++ pcm2) "audio/wav")].
Proof.
  intros once twice Hgen1 Hpay1 Hfit1 Hgen2 Hpay2 Hfit2.
  unfold max_payload in Hfit1, Hfit2.
  assert (Honce : once
    = tr ++ [GenerateContent (speech_request script1);
             LogInfo (audio_length_message pcm1);
             SaveArtifact "podcast.wav"
               (Part_from_bytes (header_bytes (len pcm1) ++ pcm1) "audio/wav")]).
  { unfold once. rewrite (run_payload _ _ _ _ _ Hgen1 Hpay1). cbn zeta.
    rewrite (wav_on_memory_getvalue_ok pcm1) by lia.
    destruct (save_artifact sv _ _ _); cbn [snd]; now rewrite <- app_assoc. }
  assert (Htwice : twice
    = once ++ [GenerateContent (speech_request script2);
               LogInfo (audio_length_message pcm2);
               SaveArtifact "podcast.wav"
                 (Part_from_bytes (header_bytes (len pcm2) ++ pcm2) "audio/wav")]).
  { unfold twice. rewrite (run_payload _ _ _ _ _ Hgen2 Hpay2). cbn zeta.
    rewrite (wav_on_memory_getvalue_ok pcm2) by lia.
    destruct (save_artifact sv _ _ _); cbn [snd]; now rewrite <- app_assoc. }
  rewrite Htwice, Honce, <- app_assoc, new_events_app, store_calls_app.
  reflexivity.
Qed.

Lemma two_invocations_same_filename_witness :
  let sv := stub_services (Some (response_with [x00; x01; x02])) in
  let once := snd (podcast_speaker sv transcript_example []) in
  let twice := snd (podcast_speaker sv "Speaker 1: Bye" once) in
  store_calls (new_events [] twice)
    = [("podcast.wav",
        Part_from_bytes (header_bytes (len [x00; x01; x02]) ++ [x00; x01; x02])
          "audio/wav");
       ("podcast.wav",
        Part_from_bytes (header_bytes (len [x00; x01; x02]) ++ [x00; x01; x02])
          "audio/wav")].
Proof.
  cbn zeta.
  apply (two_invocations_same_filename
           (stub_services (Some (response_with [x00; x01; x02])))
           transcript_example "Speaker 1: Bye" []
           (Some (response_with [x00; x01; x02]))
           (Some (response_with [x00; x01; x02]))
           [x00; x01; x02] [x00; x01; x02]);
    first [reflexivity | vm_compute; discriminate].
Defined.

(** ** X10: the prompt determines the transcript *)

Lemma append_inj_l (p a b : string) :
  (p ++ a)%string = (p ++ b)%string -> a = b.
Proof.
  induction p as [| ch p IH]; cbn [String.append]; intros H;
    [exact H | injection H as H; now apply IH].
Qed.

(** X10. The request is built from the transcript without loss: transcripts
    that give the same request are equal, so two different transcripts
    never share a prompt. Nothing in the transcript is checked or escaped;
    the empty transcript gives the instruction line alone. *)
Theorem speech_request_injective script1 script2 :
  speech_request script1 = speech_request script2 <-> script1 = script2.
Proof.
  split; [| now intros ->].
  intros H. apply (f_equal contents) in H.
  unfold speech_request in H. cbn [contents] in H.
  now apply append_inj_l in H.
Qed.
